(** * qchem_inputgen: the Q-Chem input renderer

    A shallow embedding of [src/qchem_inputgen/qchem.py]: the frozen
    dataclass [QChemOptions] and the class [QChemInputWriter] with its
    helpers [_tf], [_kv] and the method [render].

    Python values are modelled as follows.
    - [str] is [string]; one [ascii] stands for one character, so the
      model covers strings whose code points are below 256.
    - [int] is [Z], [bool] is [bool], [float] is the IEEE-754 datum
      [spec_float] of the Standard Library.
    - An object is its class name and its attribute dictionary; the
      expression [opts.name] is a dictionary lookup that raises
      [AttributeError] when the name is absent.
    - A call that may raise returns a [result]. *)

From Stdlib Require Import ZArith NArith Lia List Bool.
From Stdlib Require Import Strings.Ascii Strings.String.
From Stdlib Require Import Numbers.DecimalString Numbers.DecimalZ Numbers.DecimalN.
From Stdlib Require Import Floats.SpecFloat.
From stdpp Require Import base option gmap strings.

Local Open Scope string_scope.
Local Open Scope list_scope.
Local Open Scope Z_scope.

(** ** Exceptions and results *)

Inductive pyerr : Type :=
| AttributeError (cls attr : string).

Inductive result (A : Type) : Type :=
| Ok (a : A)
| Raise (e : pyerr).
Arguments Ok {A} a.
Arguments Raise {A} e.

Definition bind {A B : Type} (m : result A) (k : A -> result B) : result B :=
  match m with
  | Ok a => k a
  | Raise e => Raise e
  end.

Declare Scope py_scope.
Delimit Scope py_scope with py.
Notation "'let*' x ':=' m 'in' k" := (bind m (fun x => k))
  (at level 10, x name, m at level 100, k at level 200) : py_scope.
Local Open Scope py_scope.

(** ** Dynamically typed values and objects *)

Inductive pyval : Type :=
| VStr (s : string)
| VBool (b : bool)
| VInt (n : Z).

Record pyobj : Type := PyObj {
  cls : string;
  dict : gmap string pyval
}.

(** [o.name] *)
Definition getattr (o : pyobj) (name : string) : result pyval :=
  match dict o !! name with
  | Some v => Ok v
  | None => Raise (AttributeError (cls o) name)
  end.

(** ** String primitives of the host language *)

(** [str(n)] for an [int]. *)
Definition str_int (n : Z) : string :=
  NilEmpty.string_of_int (Z.to_int n).

(** [str(v)], which is also [format(v, "")] as used by an f-string
    replacement field without a format spec. *)
Definition py_str (v : pyval) : string :=
  match v with
  | VStr s => s
  | VBool true => "True"
  | VBool false => "False"
  | VInt n => str_int n
  end.

(** Truth value testing, as in [if x] and [a if x else b]. *)
Definition truthy (v : pyval) : bool :=
  match v with
  | VStr s => negb (String.eqb s "")
  | VBool b => b
  | VInt n => negb (Z.eqb n 0)
  end.

Fixpoint spaces (n : nat) : string :=
  match n with
  | O => ""
  | S k => String " " (spaces k)
  end.

(** [format(s, "<w")]: left-aligned in a field of [w] characters. *)
Definition ljust (w : nat) (s : string) : string :=
  s +:+ spaces (w - String.length s).

(** [format(s, ">w")]: right-aligned in a field of [w] characters. *)
Definition rjust (w : nat) (s : string) : string :=
  spaces (w - String.length s) +:+ s.

(** Left padding with the digit zero, for the fractional digits. *)
Fixpoint zeros (n : nat) : string :=
  match n with
  | O => ""
  | S k => String "0" (zeros k)
  end.

Definition str_N (n : N) : string :=
  NilEmpty.string_of_uint (N.to_uint n).

(** The digits of [format(x, ".pf")] for the magnitude [m * 2^e]: the
    exact value is scaled by [10^p] and rounded to the nearest integer,
    ties to even, then split into integer part and [p] fractional digits. *)
Definition scaled_round (p : nat) (m : positive) (e : Z) : N :=
  let num := (N.pos m * 10 ^ N.of_nat p)%N in
  if (0 <=? e)%Z then (num * 2 ^ Z.to_N e)%N
  else
    let den := (2 ^ Z.to_N (- e))%N in
    let q := (num / den)%N in
    let r := (num mod den)%N in
    match (2 * r ?= den)%N with
    | Lt => q
    | Gt => N.succ q
    | Eq => if N.even q then q else N.succ q
    end.

Definition fixed_digits (p : nat) (q : N) : string :=
  let ten_p := (10 ^ N.of_nat p)%N in
  let frac := str_N (q mod ten_p) in
  match p with
  | O => str_N q
  | S _ => str_N (q / ten_p) +:+ "." +:+ zeros (p - String.length frac) +:+ frac
  end.

Definition sign_str (s : bool) : string := if s then "-" else "".

(** [format(x, ".pf")] for a [float]. *)
Definition format_f (p : nat) (x : spec_float) : string :=
  match x with
  | S754_nan => "nan"
  | S754_infinity s => sign_str s +:+ "inf"
  | S754_zero s => sign_str s +:+ fixed_digits p 0
  | S754_finite s m e => sign_str s +:+ fixed_digits p (scaled_round p m e)
  end.

(** [format(x, "12.6f")]: numbers are right-aligned by default. *)
Definition format_12_6f (x : spec_float) : string :=
  rjust 12 (format_f 6 x).

(** The newline character and ["\n".join(...)]. *)
Definition nl : string := String "010"%char "".

Definition join (sep : string) (ls : list string) : string :=
  String.concat sep ls.

(** ** Data model *)

(** Modelled from the spec: the module [xyz] that declares [Molecule] is
    not part of the sources.  A molecule has an integer charge, an integer
    spin multiplicity and an ordered atom sequence; [render] unpacks each
    atom as the tuple [(sym, x, y, z)] of a symbol and three floats. *)
Definition Atom : Type := string * spec_float * spec_float * spec_float.

Record Molecule : Type := {
  charge : Z;
  multiplicity : Z;
  atoms : list Atom
}.

(** The frozen dataclass [QChemOptions] with its fifteen fields. *)
Record QChemOptions : Type := {
  jobtype : string;
  unrestricted : bool;
  basis : string;
  exchange : string;
  scf_guess : string;
  scf_convergence : Z;
  scf_algorithm : string;
  max_scf_cycles : Z;
  spin_flip : Z;
  cis_n_roots : Z;
  cis_singlets : bool;
  cis_triplets : bool;
  cis_convergence : Z;
  max_cis_cycles : Z;
  include_comment : bool
}.

(** [QChemOptions()] *)
Definition default_options : QChemOptions := {|
  jobtype := "SP";
  unrestricted := false;
  basis := "6-31G*";
  exchange := "BHHLYP";
  scf_guess := "CORE";
  scf_convergence := 10;
  scf_algorithm := "DIIS";
  max_scf_cycles := 100;
  spin_flip := 2;
  cis_n_roots := 4;
  cis_singlets := true;
  cis_triplets := false;
  cis_convergence := 8;
  max_cis_cycles := 100;
  include_comment := true
|}.

(** The attributes of an instance of [QChemOptions]: the dataclass
    declares exactly these fields, and neither a property nor a
    [__getattr__]. *)
Definition fields_of (o : QChemOptions) : list (string * pyval) :=
  [ ("jobtype", VStr (jobtype o));
    ("unrestricted", VBool (unrestricted o));
    ("basis", VStr (basis o));
    ("exchange", VStr (exchange o));
    ("scf_guess", VStr (scf_guess o));
    ("scf_convergence", VInt (scf_convergence o));
    ("scf_algorithm", VStr (scf_algorithm o));
    ("max_scf_cycles", VInt (max_scf_cycles o));
    ("spin_flip", VInt (spin_flip o));
    ("cis_n_roots", VInt (cis_n_roots o));
    ("cis_singlets", VBool (cis_singlets o));
    ("cis_triplets", VBool (cis_triplets o));
    ("cis_convergence", VInt (cis_convergence o));
    ("max_cis_cycles", VInt (max_cis_cycles o));
    ("include_comment", VBool (include_comment o)) ].

Definition instance_of (o : QChemOptions) : pyobj :=
  PyObj "QChemOptions" (list_to_map (fields_of o)).

(** ** QChemInputWriter *)

(** Lines 61-63 *)
Definition _tf (x : pyval) : string :=
  if truthy x then "TRUE" else "FALSE".

(** Lines 65-68; the value goes through [format(value, "")]. *)
Definition _kv (key : string) (value : pyval) (width : nat) : string :=
  ljust width key +:+ " " +:+ py_str value.

(** The default of the parameter [width] of [_kv]. *)
Definition kv_width : nat := 18.

(** Line 88, the conditional expression
    [title if title else f"{opts.basis}/{opts.method} MRSF-TDDFT"]:
    [None] and the empty string are false, and the attributes of [opts]
    are read only in the [else] branch. *)
Definition resolve_title (opts : pyobj) (title : option string) : result string :=
  match title with
  | Some t =>
      if negb (String.eqb t "") then Ok t
      else
        let* b := getattr opts "basis" in
        let* m := getattr opts "method" in
        Ok (py_str b +:+ "/" +:+ py_str m +:+ " MRSF-TDDFT")
  | None =>
      let* b := getattr opts "basis" in
      let* m := getattr opts "method" in
      Ok (py_str b +:+ "/" +:+ py_str m +:+ " MRSF-TDDFT")
  end.

(** Lines 85-96, the [$comment] part of [render]: the list [blocks]
    after the [if]. *)
Definition comment_block (opts : pyobj) (title : option string)
    (blocks : list string) : result (list string) :=
  let* ic := getattr opts "include_comment" in
  if truthy ic then
    let* auto_title := resolve_title opts title in
    let comment_lines :=
      [ "$comment"; "  1 " +:+ auto_title; "  2"; "$end"; "" ] in
    Ok (blocks ++ [join nl comment_lines])
  else Ok blocks.

(** Line 101, the line appended in the [for] loop over [mol.atoms]. *)
Definition atom_line (a : Atom) : string :=
  let '(sym, x, y, z) := a in
  ljust 2 sym +:+ "  " +:+ format_12_6f x +:+ "  " +:+ format_12_6f y
    +:+ "  " +:+ format_12_6f z.

(** Lines 99-102, the list [mol_lines] when the [$molecule] part is
    done; [append] is [++] with a singleton. *)
Definition molecule_lines (mol : Molecule) : list string :=
  let mol_lines :=
    [ "$molecule"; str_int (charge mol) +:+ " " +:+ str_int (multiplicity mol) ] in
  let mol_lines :=
    fold_left (fun acc a => acc ++ [atom_line a]) (atoms mol) mol_lines in
  mol_lines ++ [ "$end" ].

(** Line 103 *)
Definition molecule_block (mol : Molecule) (blocks : list string) : list string :=
  blocks ++ [join nl (molecule_lines mol) +:+ nl].

(** Lines 106-122, the list [rem] when the [$rem] part is done; the
    attributes are read in the order of the statements, and an argument
    is evaluated before [_kv] is called. *)
Definition rem_lines (opts : pyobj) : result (list string) :=
  let rem := [ "$rem" ] in
  let* v := getattr opts "jobtype" in
  let rem := rem ++ [_kv "JOBTYPE" v kv_width] in
  let* v := getattr opts "unrestricted" in
  let rem := rem ++ [_kv "UNRESTRICTED" (VStr (_tf v)) kv_width] in
  let* v := getattr opts "basis" in
  let rem := rem ++ [_kv "BASIS" v kv_width] in
  let* v := getattr opts "method" in
  let rem := rem ++ [_kv "METHOD" v kv_width] in
  let* v := getattr opts "scf_guess" in
  let rem := rem ++ [_kv "SCF_GUESS" v kv_width] in
  let* v := getattr opts "scf_convergence" in
  let rem := rem ++ [_kv "SCF_CONVERGENCE" (VStr (py_str v)) kv_width] in
  let* v := getattr opts "scf_algorithm" in
  let rem := rem ++ [_kv "SCF_ALGORITHM" v kv_width] in
  let* v := getattr opts "max_scf_cycles" in
  let rem := rem ++ [_kv "MAX_SCF_CYCLES" (VStr (py_str v)) kv_width] in
  let* v := getattr opts "spin_flip" in
  let rem := rem ++ [_kv "SPIN_FLIP" (VStr (py_str v)) kv_width] in
  let* v := getattr opts "cis_n_roots" in
  let rem := rem ++ [_kv "CIS_N_ROOTS" (VStr (py_str v)) kv_width] in
  let* v := getattr opts "cis_singlets" in
  let rem := rem ++ [_kv "CIS_SINGLETS" (VStr (_tf v)) kv_width] in
  let* v := getattr opts "cis_triplets" in
  let rem := rem ++ [_kv "CIS_TRIPLETS" (VStr (_tf v)) kv_width] in
  let* v := getattr opts "cis_convergence" in
  let rem := rem ++ [_kv "CIS_CONVERGENCE" (VStr (py_str v)) kv_width] in
  let* v := getattr opts "max_cis_cycles" in
  let rem := rem ++ [_kv "MAX_CIS_CYCLES" (VStr (py_str v)) kv_width] in
  Ok (rem ++ [ "$end" ]).

(** Line 124 *)
Definition rem_block (opts : pyobj) (blocks : list string) : result (list string) :=
  let* rem := rem_lines opts in
  Ok (blocks ++ [join nl rem +:+ nl]).

(** [QChemInputWriter.render(mol, opts, title=title)].  The writer has
    no attribute and [render] does not read [self]; [opts] is any object,
    since the annotation [QChemOptions] is not checked at run time. *)
Definition render (mol : Molecule) (opts : pyobj) (title : option string)
    : result string :=
  let blocks : list string := [] in
  let* blocks := comment_block opts title blocks in
  let blocks := molecule_block mol blocks in
  let* blocks := rem_block opts blocks in
  Ok (join nl blocks).

(** ** Inputs used in the tests *)

Definition zero : spec_float := S754_zero false.

(** The molecule read from [be.xyz] with charge 0 and multiplicity 3. *)
Definition be_molecule : Molecule :=
  {| charge := 0; multiplicity := 3; atoms := [ ("Be", zero, zero, zero) ] |}.

(** [QChemOptions(include_comment=False)] *)
Definition no_comment_options : QChemOptions := {|
  jobtype := "SP";
  unrestricted := false;
  basis := "6-31G*";
  exchange := "BHHLYP";
  scf_guess := "CORE";
  scf_convergence := 10;
  scf_algorithm := "DIIS";
  max_scf_cycles := 100;
  spin_flip := 2;
  cis_n_roots := 4;
  cis_singlets := true;
  cis_triplets := false;
  cis_convergence := 8;
  max_cis_cycles := 100;
  include_comment := false
|}.

(** [QChemOptions(cis_singlets=False, cis_triplets=True)] *)
Definition toggled_options : QChemOptions := {|
  jobtype := "SP";
  unrestricted := false;
  basis := "6-31G*";
  exchange := "BHHLYP";
  scf_guess := "CORE";
  scf_convergence := 10;
  scf_algorithm := "DIIS";
  max_scf_cycles := 100;
  spin_flip := 2;
  cis_n_roots := 4;
  cis_singlets := false;
  cis_triplets := true;
  cis_convergence := 8;
  max_cis_cycles := 100;
  include_comment := true
|}.

(** An options object that carries one more attribute, [method], next to
    the ones it has: what [render] receives when the caller passes an
    instance of a subclass that defines [method].  [render] does not
    inspect the class of [opts]. *)
Definition with_method (m : pyval) (o : pyobj) : pyobj :=
  PyObj (cls o) (<["method" := m]> (dict o)).

(** ** Observations on the rendered text *)

(** The value of an attribute that is present. *)
Definition attr (o : pyobj) (name : string) : pyval :=
  match dict o !! name with
  | Some v => v
  | None => VStr ""
  end.












(** The values a settings line is made of: key, attribute read, and the
    conversion applied before [_kv]. *)
Inductive conv : Type := Verbatim | Bool_token | Decimal.

Definition convert (c : conv) (v : pyval) : pyval :=
  match c with
  | Verbatim => v
  | Bool_token => VStr (_tf v)
  | Decimal => VStr (py_str v)
  end.

Definition settings : list (string * string * conv) :=
  [ ("JOBTYPE", "jobtype", Verbatim);
    ("UNRESTRICTED", "unrestricted", Bool_token);
    ("BASIS", "basis", Verbatim);
    ("METHOD", "method", Verbatim);
    ("SCF_GUESS", "scf_guess", Verbatim);
    ("SCF_CONVERGENCE", "scf_convergence", Decimal);
    ("SCF_ALGORITHM", "scf_algorithm", Verbatim);
    ("MAX_SCF_CYCLES", "max_scf_cycles", Decimal);
    ("SPIN_FLIP", "spin_flip", Decimal);
    ("CIS_N_ROOTS", "cis_n_roots", Decimal);
    ("CIS_SINGLETS", "cis_singlets", Bool_token);
    ("CIS_TRIPLETS", "cis_triplets", Bool_token);
    ("CIS_CONVERGENCE", "cis_convergence", Decimal);
    ("MAX_CIS_CYCLES", "max_cis_cycles", Decimal) ].

Definition setting_line (o : pyobj) (s : string * string * conv) : string :=
  let '(key, name, c) := s in
  _kv key (convert c (attr o name)) kv_width.



(** The title that the header line shows when every attribute resolves. *)
Definition shown_title (o : pyobj) (title : option string) : string :=
  match title with
  | Some (String c t) => String c t
  | _ => py_str (attr o "basis") +:+ "/" +:+ py_str (attr o "method") +:+ " MRSF-TDDFT"
  end.

Definition comment_lines_of (o : pyobj) (title : option string) : list string :=
  if truthy (attr o "include_comment")
  then [ "$comment"; "  1 " +:+ shown_title o title; "  2"; "$end"; "" ]
  else [].

Definition settings_lines_of (o : pyobj) : list string :=
  [ "$rem" ] ++ map (setting_line o) settings ++ [ "$end" ].

Definition molecule_lines_of (mol : Molecule) : list string :=
  [ "$molecule"; str_int (charge mol) +:+ " " +:+ str_int (multiplicity mol) ]
    ++ map atom_line (atoms mol) ++ [ "$end" ].

(** All lines of the text, as the three parts lay them out. *)
Definition text_lines (mol : Molecule) (o : pyobj) (title : option string)
    : list string :=
  comment_lines_of o title ++ molecule_lines_of mol ++ [ "" ]
    ++ settings_lines_of o ++ [ "" ].

(** The attributes that [render] reads from [opts]. *)
Definition attrs_read : list string :=
  "include_comment" :: map (fun s : string * string * conv => snd (fst s)) settings.

Definition has_attr (o : pyobj) (name : string) : bool :=
  match dict o !! name with
  | Some _ => true
  | None => false
  end.

(** The options object has every attribute that [render] reads. *)
Definition has_attrs (o : pyobj) : bool := forallb (has_attr o) attrs_read.


(** The exception that reading [opts.method] raises on an instance. *)
Definition no_method : pyerr := AttributeError "QChemOptions" "method".

(** [render] has returned a text. *)
Definition returns_text (r : result string) : bool :=
  match r with
  | Ok _ => true
  | Raise _ => false
  end.

(** An options object with the default fields and a [method] attribute. *)
Definition derived_options : pyobj :=
  with_method (VStr "BHHLYP") (instance_of default_options).

Definition derived_no_comment : pyobj :=
  with_method (VStr "BHHLYP") (instance_of no_comment_options).




(** A molecule of two atoms, for the order of the atom lines. *)
Definition oh_molecule : Molecule :=
  {| charge := -1; multiplicity := 1;
     atoms := [ ("O", zero, zero, zero);
                ("H", zero, zero, S754_finite false 31 (-5)) ] |}.

(** The title of the first test. *)
Definition be_title : string := "Be/6-31G*/BHHLYP MRSF-TDDFT".

(** ** The tests of the repository *)

(** [pat in s] for two strings. *)
Fixpoint contains (pat s : string) : bool :=
  String.prefix pat s
  || match s with
     | EmptyString => false
     | String _ s' => contains pat s'
     end.

(** How a test ends: all assertions held, one failed, or a call raised. *)
Inductive outcome : Type :=
| Passed
| AssertionFailed
| Errored (e : pyerr).

(** [assert b], followed by the rest of the test. *)
Definition py_assert (b : bool) (rest : outcome) : outcome :=
  if b then rest else AssertionFailed.

(** [QChemOptions(exchange="BHHLYP")] *)
Definition exchange_options : QChemOptions := {|
  jobtype := "SP";
  unrestricted := false;
  basis := "6-31G*";
  exchange := "BHHLYP";
  scf_guess := "CORE";
  scf_convergence := 10;
  scf_algorithm := "DIIS";
  max_scf_cycles := 100;
  spin_flip := 2;
  cis_n_roots := 4;
  cis_singlets := true;
  cis_triplets := false;
  cis_convergence := 8;
  max_cis_cycles := 100;
  include_comment := true
|}.

(** The four tests of [tests/test_qchem_render.py].  [XYZReader] is not
    part of the sources, so each test takes the molecule that [make_be]
    returns as its argument [mol]. *)
Definition test_render_contains_required_blocks (mol : Molecule) : outcome :=
  match render mol (instance_of default_options)
          (Some "Be/6-31G*/BHHLYP MRSF-TDDFT") with
  | Raise e => Errored e
  | Ok text =>
      py_assert (contains "$comment" text)
        (py_assert (contains "$molecule" text)
           (py_assert (contains "$rem" text) Passed))
  end.

Definition test_exchange_keyword_used (mol : Molecule) : outcome :=
  let opts := instance_of exchange_options in
  match render mol opts None with
  | Raise e => Errored e
  | Ok text => py_assert (contains "EXCHANGE           BHHLYP" text) Passed
  end.

Definition test_spin_flip_and_cis_keywords (mol : Molecule) : outcome :=
  match render mol (instance_of default_options) None with
  | Raise e => Errored e
  | Ok text =>
      py_assert (contains "SPIN_FLIP" text)
        (py_assert (contains "CIS_N_ROOTS" text)
           (py_assert (contains "CIS_SINGLETS" text)
              (py_assert (contains "CIS_TRIPLETS" text) Passed)))
  end.

Definition test_boolean_toggles (mol : Molecule) : outcome :=
  let opts := instance_of toggled_options in
  match render mol opts None with
  | Raise e => Errored e
  | Ok text =>
      py_assert (contains "CIS_SINGLETS       FALSE" text)
        (py_assert (contains "CIS_TRIPLETS       TRUE" text) Passed)
  end.

(** * Properties *)

(** ** Sample values of the float format *)

Example format_zero : format_12_6f zero = "    0.000000".
Proof. reflexivity. Qed.

Example format_negative_zero : format_12_6f (S754_zero true) = "   -0.000000".
Proof. reflexivity. Qed.

(** 1.5 is [3 * 2^-1]. *)
Example format_one_and_half :
  format_12_6f (S754_finite false 3 (-1)) = "    1.500000".
Proof. reflexivity. Qed.

(** -1.25 is [-5 * 2^-2]. *)
Example format_negative :
  format_12_6f (S754_finite true 5 (-2)) = "   -1.250000".
Proof. reflexivity. Qed.

(** 0.0078125 is [2^-7]: a tie at the sixth decimal goes to the even digit. *)
Example format_tie : format_12_6f (S754_finite false 1 (-7)) = "    0.007812".
Proof. reflexivity. Qed.

(** A value too wide for the field is not cut. *)
Example format_wide :
  format_12_6f (S754_finite false 1 40) = "1099511627776.000000".
Proof. reflexivity. Qed.

Example format_infinity : format_12_6f (S754_infinity true) = "        -inf".
Proof. reflexivity. Qed.


(** ** Strings, joins and lines *)

Section StringFacts.

Lemma str_app_nil (b : string) : "" +:+ b = b.
Proof. reflexivity. Qed.

Lemma str_app_cons (x : ascii) (a b : string) :
  String x a +:+ b = String x (a +:+ b).
Proof. reflexivity. Qed.

Lemma str_app_assoc (a b c : string) : (a +:+ b) +:+ c = a +:+ b +:+ c.
Proof.
  induction a as [|x a IH]; [reflexivity|].
  now rewrite !str_app_cons, IH.
Qed.

Lemma str_app_empty_r (a : string) : a +:+ "" = a.
Proof.
  induction a as [|x a IH]; [reflexivity|].
  now rewrite str_app_cons, IH.
Qed.

Lemma join_cons (sep x y : string) (ls : list string) :
  join sep (x :: y :: ls) = x +:+ sep +:+ join sep (y :: ls).
Proof. reflexivity. Qed.

Lemma join_app (sep : string) (a b : list string) :
  a <> [] -> b <> [] ->
  join sep (a ++ b) = join sep a +:+ sep +:+ join sep b.
Proof.
  intros Ha Hb. induction a as [|x a IH]; [contradiction|].
  destruct a as [|y a].
  - destruct b as [|z b]; [contradiction | reflexivity].
  - change ((x :: y :: a) ++ b) with (x :: y :: (a ++ b)).
    rewrite !join_cons.
    change (y :: a ++ b) with ((y :: a) ++ b).
    rewrite IH by discriminate.
    now rewrite !str_app_assoc.
Qed.

Lemma join_snoc_empty (sep : string) (a : list string) :
  a <> [] -> join sep (a ++ [ "" ]) = join sep a +:+ sep.
Proof.
  intros Ha. rewrite join_app by (assumption || discriminate).
  change (join sep [ "" ]) with "". now rewrite str_app_empty_r.
Qed.









End StringFacts.

(** ** The formatting primitives produce single lines *)

Section Formatting.














End Formatting.

(** ** What [render] returns when it returns *)

Lemma getattr_Ok (o : pyobj) (name : string) (v : pyval) :
  getattr o name = Ok v -> attr o name = v.
Proof.
  unfold getattr, attr. destruct (dict o !! name); [|discriminate].
  now intros [= ->].
Qed.

(** One step of a run that has returned: the attribute read at the head
    of [H] was present. *)
Ltac read_attr H :=
  match type of H with
  | bind (getattr ?o ?a) _ = Ok _ =>
      let E := fresh "E" in
      destruct (getattr o a) eqn:E; [|discriminate H];
      apply getattr_Ok in E; cbn [bind] in H
  end.

Section Render.

(** The loop over the atoms appends one line per atom, in order. *)
Lemma fold_append (f : Atom -> string) (l : list Atom) (init : list string) :
  fold_left (fun acc a => acc ++ [ f a ]) l init = init ++ map f l.
Proof.
  revert init. induction l as [|a l IH]; intros init; simpl.
  - now rewrite app_nil_r.
  - rewrite IH, <- app_assoc. reflexivity.
Qed.

Lemma molecule_lines_eq (mol : Molecule) :
  molecule_lines mol = molecule_lines_of mol.
Proof.
  unfold molecule_lines, molecule_lines_of.
  rewrite fold_append, <- app_assoc. reflexivity.
Qed.

Lemma rem_lines_Ok (o : pyobj) (ls : list string) :
  rem_lines o = Ok ls -> ls = settings_lines_of o.
Proof.
  unfold rem_lines. intros H. repeat read_attr H.
  injection H as <-. subst.
  reflexivity.
Qed.

Lemma resolve_title_Ok (o : pyobj) (title : option string) (t : string) :
  resolve_title o title = Ok t -> t = shown_title o title.
Proof.
  unfold resolve_title, shown_title. intros H.
  destruct title as [[|c s]|]; cbn in H.
  - repeat read_attr H. injection H as <-. now subst.
  - now injection H as <-.
  - repeat read_attr H. injection H as <-. now subst.
Qed.

Lemma comment_block_Ok (o : pyobj) (title : option string) (bs bs' : list string) :
  comment_block o title bs = Ok bs' ->
  bs' = bs ++ match comment_lines_of o title with
              | [] => []
              | ls => [ join nl ls ]
              end.
Proof.
  unfold comment_block, comment_lines_of. intros H.
  read_attr H. subst a.
  destruct (truthy (attr o "include_comment")).
  - destruct (resolve_title o title) as [t|e] eqn:Et; [|discriminate H].
    apply resolve_title_Ok in Et. cbn [bind] in H.
    injection H as <-. now subst t.
  - injection H as <-. now rewrite app_nil_r.
Qed.

(** The returned text is the newline-join of [text_lines]. *)
Lemma render_Ok (mol : Molecule) (o : pyobj) (title : option string)
    (text : string) :
  render mol o title = Ok text -> text = join nl (text_lines mol o title).
Proof.
  unfold render, rem_block, molecule_block. intros H.
  destruct (comment_block o title []) as [bs|e] eqn:Ec; [|discriminate H].
  apply comment_block_Ok in Ec. cbn [bind] in H.
  destruct (rem_lines o) as [rem|e] eqn:Er; [|discriminate H].
  apply rem_lines_Ok in Er. cbn [bind] in H.
  injection H as <-. subst bs rem.
  rewrite molecule_lines_eq. unfold text_lines.
  assert (Hm : molecule_lines_of mol <> []) by discriminate.
  assert (Hs : settings_lines_of o <> []) by discriminate.
  rewrite <- !(join_snoc_empty nl) by assumption.
  replace (molecule_lines_of mol ++ [ "" ] ++ settings_lines_of o ++ [ "" ])
    with ((molecule_lines_of mol ++ [ "" ]) ++ settings_lines_of o ++ [ "" ])
    by now rewrite <- app_assoc.
  remember (molecule_lines_of mol ++ [ "" ]) as M eqn:EM.
  remember (settings_lines_of o ++ [ "" ]) as S eqn:ES.
  assert (HM : M <> []) by (subst M; now destruct (molecule_lines_of mol)).
  assert (HS : S <> []) by (subst S; now destruct (settings_lines_of o)).
  assert (HMS : M ++ S <> []) by now destruct M.
  destruct (comment_lines_of o title) as [|c cs] eqn:Ecl.
  - cbn [app]. change (join nl [join nl M; join nl S])
      with (join nl M +:+ nl +:+ join nl S).
    now rewrite join_app.
  - unfold comment_lines_of in Ecl.
    destruct (truthy (attr o "include_comment")); [|discriminate Ecl].
    injection Ecl as <- <-.
    set (t := "  1 " +:+ shown_title o title).
    cbn [app].
    change (join nl [?a; join nl M; join nl S])
      with (a +:+ nl +:+ join nl M +:+ nl +:+ join nl S).
    change ("$comment" :: t :: "  2" :: "$end" :: "" :: M ++ S)
      with ([ "$comment"; t; "  2"; "$end"; "" ] ++ (M ++ S)).
    rewrite (join_app nl [ "$comment"; t; "  2"; "$end"; "" ]) by
      (assumption || discriminate).
    now rewrite join_app.
Qed.



Lemma has_attr_getattr (o : pyobj) (name : string) :
  has_attr o name = true -> getattr o name = Ok (attr o name).
Proof.
  unfold has_attr, getattr, attr.
  destruct (dict o !! name); [reflexivity | discriminate].
Qed.

(** [render] returns when the options object has the attributes it reads. *)
Lemma render_returns (mol : Molecule) (o : pyobj) (title : option string) :
  has_attrs o = true ->
  render mol o title = Ok (join nl (text_lines mol o title)).
Proof.
  intros H.
  assert (Hg : forall n, In n attrs_read -> getattr o n = Ok (attr o n)).
  { intros n Hn. apply has_attr_getattr.
    unfold has_attrs in H. rewrite forallb_forall in H. now apply H. }
  destruct (render mol o title) as [text|e] eqn:E.
  - now rewrite (render_Ok _ _ _ _ E).
  - exfalso. revert E.
    unfold render, comment_block, resolve_title, rem_block, rem_lines.
    repeat match goal with
           | |- context [getattr o ?n] =>
               rewrite (Hg n) by (cbv [attrs_read settings map fst snd In];
                                  repeat (first [left; reflexivity | right]))
           end.
    cbn [bind]. destruct (truthy (attr o "include_comment")); [|discriminate].
    destruct title as [t|]; [|discriminate].
    destruct (negb (t =? "")%string); discriminate.
Qed.

End Render.

(** ** Instances of [QChemOptions] have no attribute [method] *)

Section Instances.

Variable opts : QChemOptions.

Lemma getattr_instance_method :
  getattr (instance_of opts) "method" = Raise no_method.
Proof. reflexivity. Qed.

Lemma getattr_instance_include_comment :
  getattr (instance_of opts) "include_comment" = Ok (VBool (include_comment opts)).
Proof. reflexivity. Qed.

Lemma getattr_instance_basis :
  getattr (instance_of opts) "basis" = Ok (VStr (basis opts)).
Proof. reflexivity. Qed.

(** The fourth statement of the [$rem] part reads [opts.method]. *)
Lemma rem_lines_instance : rem_lines (instance_of opts) = Raise no_method.
Proof. reflexivity. Qed.

Lemma rem_block_instance (blocks : list string) :
  rem_block (instance_of opts) blocks = Raise no_method.
Proof. unfold rem_block. now rewrite rem_lines_instance. Qed.

Lemma comment_block_instance (title : option string) (blocks : list string) :
  comment_block (instance_of opts) title blocks = Raise no_method
  \/ exists blocks', comment_block (instance_of opts) title blocks = Ok blocks'.
Proof.
  unfold comment_block. rewrite getattr_instance_include_comment.
  cbn [bind truthy]. destruct (include_comment opts); [|right; eauto].
  unfold resolve_title. rewrite getattr_instance_basis, getattr_instance_method.
  cbn [bind]. destruct title as [t|]; [|now left].
  destruct (negb (t =? "")%string); [right; eauto | now left].
Qed.

Lemma render_instance (mol : Molecule) (title : option string) :
  render mol (instance_of opts) title = Raise no_method.
Proof.
  unfold render.
  destruct (comment_block_instance title []) as [-> | [bs ->]]; [reflexivity|].
  cbn [bind]. now rewrite rem_block_instance.
Qed.

(** With a [method] attribute next to the fields, every read succeeds. *)
Lemma rem_lines_with_method (m : pyval) :
  rem_lines (with_method m (instance_of opts))
  = Ok (settings_lines_of (with_method m (instance_of opts))).
Proof. reflexivity. Qed.

Lemma has_attrs_with_method (m : pyval) :
  has_attrs (with_method m (instance_of opts)) = true.
Proof. reflexivity. Qed.

Lemma render_with_method (mol : Molecule) (m : pyval) (title : option string) :
  render mol (with_method m (instance_of opts)) title
  = Ok (join nl (text_lines mol (with_method m (instance_of opts)) title)).
Proof. apply render_returns, has_attrs_with_method. Qed.

(** An instance as the dataclass declares it lacks one of them. *)
Lemma has_attrs_instance : has_attrs (instance_of opts) = false.
Proof. reflexivity. Qed.

End Instances.

(** ** The lines of the returned text *)

Section Lines.

















End Lines.

(** ** Sections of the returned text *)

Section Sections.






Lemma prefix_app (a b : string) : String.prefix a (a +:+ b) = true.
Proof.
  induction a as [|c a IH]; [now destruct b|].
  rewrite str_app_cons. cbn [String.prefix].
  destruct (ascii_dec c c); [exact IH | contradiction].
Qed.


End Sections.

(** * The claims *)

(** C1 (the code contradicts the claim).  The claim says that [render]
    returns a text for every molecule and every instance of
    [QChemOptions].  The code reads [opts.method], an attribute that the
    dataclass does not define: for the molecule and the default options
    of the tests the call raises [AttributeError], and no instance of
    [QChemOptions] makes [render] return a text. *)
Theorem render_returns_no_text :
  render be_molecule (instance_of default_options) None = Raise no_method
  /\ forall mol opts title,
       returns_text (render mol (instance_of opts) title) = false.
Proof.
  split; [apply render_instance|].
  intros mol opts title. now rewrite render_instance.
Qed.




(** C3 (the code contradicts the claim).  With [exchange="BHHLYP"], the
    default, the call raises for every molecule and title; and whatever
    object is passed, no settings line that the code builds begins with
    the key [EXCHANGE]: the fourth line has the key [METHOD]. *)
Theorem exchange_line_not_rendered :
  exchange default_options = "BHHLYP"
  /\ (forall mol title,
        render mol (instance_of default_options) title = Raise no_method)
  /\ (forall o ls l,
        rem_lines o = Ok ls -> In l ls -> String.prefix "EXCHANGE" l = false).
Proof.
  split; [reflexivity|]. split; [intros; apply render_instance|].
  intros o ls l H Hin. apply rem_lines_Ok in H. subst ls.
  unfold settings_lines_of, settings in Hin. cbn [map app In] in Hin.
  repeat (destruct Hin as [<-|Hin]; [vm_compute; reflexivity|]).
  contradiction.
Qed.

(** C4 (the code contradicts the claim).  For an instance of
    [QChemOptions] the settings lines are never completed: the fourth
    read, [opts.method], raises.  Only for an object that also carries a
    [method] attribute does the code build the fourteen lines, in the
    order of the claim, each the key padded to 18 columns, one blank and
    the value, with the key [METHOD] in fourth place. *)
Theorem settings_lines_not_built (opts : QChemOptions) :
  rem_lines (instance_of opts) = Raise no_method
  /\ forall m,
       rem_lines (with_method m (instance_of opts))
       = Ok [ "$rem";
              "JOBTYPE            " +:+ jobtype opts;
              "UNRESTRICTED       " +:+ (if unrestricted opts then "TRUE" else "FALSE");
              "BASIS              " +:+ basis opts;
              "METHOD             " +:+ py_str m;
              "SCF_GUESS          " +:+ scf_guess opts;
              "SCF_CONVERGENCE    " +:+ str_int (scf_convergence opts);
              "SCF_ALGORITHM      " +:+ scf_algorithm opts;
              "MAX_SCF_CYCLES     " +:+ str_int (max_scf_cycles opts);
              "SPIN_FLIP          " +:+ str_int (spin_flip opts);
              "CIS_N_ROOTS        " +:+ str_int (cis_n_roots opts);
              "CIS_SINGLETS       " +:+ (if cis_singlets opts then "TRUE" else "FALSE");
              "CIS_TRIPLETS       " +:+ (if cis_triplets opts then "TRUE" else "FALSE");
              "CIS_CONVERGENCE    " +:+ str_int (cis_convergence opts);
              "MAX_CIS_CYCLES     " +:+ str_int (max_cis_cycles opts);
              "$end" ].
Proof.
  split; [apply rem_lines_instance|].
  intros m. reflexivity.
Qed.




(** C6 (the code contradicts the claim).  [_tf] gives the tokens of the
    claim and [_kv] would lay out the two lines of the claim, but with
    [cis_singlets=False] and [cis_triplets=True] the call raises for
    every molecule and title, so that no text holds these lines. *)
Theorem boolean_lines_not_rendered :
  _tf (VBool true) = "TRUE"
  /\ _tf (VBool false) = "FALSE"
  /\ _kv "CIS_SINGLETS" (VStr (_tf (VBool (cis_singlets toggled_options)))) kv_width
     = "CIS_SINGLETS       FALSE"
  /\ _kv "CIS_TRIPLETS" (VStr (_tf (VBool (cis_triplets toggled_options)))) kv_width
     = "CIS_TRIPLETS       TRUE"
  /\ forall mol title,
       render mol (instance_of toggled_options) title = Raise no_method.
Proof.
  repeat split. intros. apply render_instance.
Qed.






(** C9 (the code contradicts the claim).  The lines that the code builds
    for the molecule section are the opening marker, the line of charge
    and multiplicity, one line per atom in the order of the atoms, and
    the closing marker; but for every instance of [QChemOptions] the call
    raises afterwards, so that no rendered text holds them. *)
Theorem molecule_lines_not_rendered (mol : Molecule) (opts : QChemOptions)
    (title : option string) :
  molecule_lines mol
  = "$molecule"
      :: (str_int (charge mol) +:+ " " +:+ str_int (multiplicity mol))
      :: map atom_line (atoms mol) ++ [ "$end" ]
  /\ render mol (instance_of opts) title = Raise no_method.
Proof.
  split; [apply molecule_lines_eq | apply render_instance].
Qed.

(** C10.  When the attribute [include_comment] of the options is false,
    the result of [render] does not depend on the title. *)
Theorem title_unused_without_comment (mol : Molecule) (o : pyobj)
    (v : pyval) (t1 t2 : option string) :
  getattr o "include_comment" = Ok v ->
  truthy v = false ->
  render mol o t1 = render mol o t2.
Proof.
  intros H Hv. unfold render, comment_block.
  rewrite H. cbn [bind]. now rewrite Hv.
Qed.

(** [QChemOptions(include_comment=False)], as it is and with a [method]
    attribute, rendered without a title and with one. *)
Lemma title_unused_without_comment_witness :
  (getattr (instance_of no_comment_options) "include_comment" = Ok (VBool false)
   /\ truthy (VBool false) = false
   /\ render be_molecule (instance_of no_comment_options) None
      = render be_molecule (instance_of no_comment_options) (Some "Be atom"))
  /\ (getattr derived_no_comment "include_comment" = Ok (VBool false)
      /\ returns_text (render be_molecule derived_no_comment None) = true
      /\ render be_molecule derived_no_comment None
         = render be_molecule derived_no_comment (Some "Be atom")).
Proof.
  split.
  - split; [reflexivity|]. split; [reflexivity|].
    apply (title_unused_without_comment be_molecule
             (instance_of no_comment_options) (VBool false)); reflexivity.
  - split; [reflexivity|]. split; [reflexivity|].
    apply (title_unused_without_comment be_molecule derived_no_comment
             (VBool false)); reflexivity.
Defined.

(** * Further properties of the renderer *)

(** ** Lengths, prefixes and substrings *)

Section Widths.

Local Open Scope nat_scope.

Lemma str_length_app (a b : string) :
  String.length (a +:+ b) = String.length a + String.length b.
Proof.
  induction a as [|c a IH]; [reflexivity|].
  rewrite str_app_cons. cbn [String.length]. now rewrite IH.
Qed.

Lemma length_spaces (n : nat) : String.length (spaces n) = n.
Proof. induction n; cbn [spaces String.length]; auto. Qed.

Lemma length_ljust (w : nat) (s : string) :
  String.length (ljust w s) = Nat.max w (String.length s).
Proof. unfold ljust. rewrite str_length_app, length_spaces. lia. Qed.

Lemma length_rjust (w : nat) (s : string) :
  String.length (rjust w s) = Nat.max w (String.length s).
Proof. unfold rjust. rewrite str_length_app, length_spaces. lia. Qed.

Lemma prefix_refl (a : string) : String.prefix a a = true.
Proof. rewrite <- (str_app_empty_r a) at 2. apply prefix_app. Qed.

Lemma prefix_app_assoc (a b c : string) :
  String.prefix a ((a +:+ b) +:+ c) = true.
Proof. rewrite str_app_assoc. apply prefix_app. Qed.

Lemma substring_all (b : string) : substring 0 (String.length b) b = b.
Proof.
  induction b as [|c b IH]; [reflexivity|].
  cbn [String.length substring]. now rewrite IH.
Qed.

Lemma substring_whole_prefix (b r : string) :
  substring 0 (String.length b) (b +:+ r) = b.
Proof.
  induction b as [|c b IH].
  - now destruct r.
  - rewrite str_app_cons. cbn [String.length substring]. now rewrite IH.
Qed.

(** The part of given length that follows a prefix. *)
Lemma substring_after (a b r : string) :
  substring (String.length a) (String.length b) (a +:+ b +:+ r) = b.
Proof.
  induction a as [|c a IH].
  - rewrite str_app_nil. apply substring_whole_prefix.
  - rewrite str_app_cons. cbn [String.length substring]. exact IH.
Qed.

Lemma get_after (a : string) (c : ascii) (r : string) :
  String.get (String.length a) (a +:+ String c r) = Some c.
Proof.
  induction a as [|x a IH]; [reflexivity|].
  rewrite str_app_cons. cbn [String.length String.get]. exact IH.
Qed.

End Widths.

(** ** The layout of one line *)

Section LineLayout.

Local Open Scope nat_scope.

Lemma substring_at (a b r : string) (n m : nat) :
  String.length a = n -> String.length b = m ->
  substring n m (a +:+ b +:+ r) = b.
Proof. intros <- <-. apply substring_after. Qed.

Lemma substring_at_end (a b : string) (n m : nat) :
  String.length a = n -> String.length b = m ->
  substring n m (a +:+ b) = b.
Proof.
  intros Ha Hb. rewrite <- (str_app_empty_r b) at 1.
  now apply substring_at.
Qed.

(** X1.  [_kv] never cuts the key: the line begins with the key, and its
    length is the larger of the width and the key length, plus one blank
    and the printed value. *)
Theorem kv_key_never_cut (key : string) (v : pyval) (w : nat) :
  String.prefix key (_kv key v w) = true
  /\ String.length (_kv key v w)
     = Nat.max w (String.length key) + 1 + String.length (py_str v).
Proof.
  unfold _kv, ljust. split.
  - rewrite str_app_assoc. apply prefix_app.
  - rewrite !str_length_app, length_spaces. cbn [String.length]. lia.
Qed.

(** X2.  When the key fits the width, the character at column [w] of
    the line is the separating blank and the printed value is what
    follows it, whatever the key. *)
Theorem kv_value_column (key : string) (v : pyval) (w : nat) :
  String.length key <= w ->
  String.get w (_kv key v w) = Some " "%char
  /\ substring (S w) (String.length (py_str v)) (_kv key v w) = py_str v.
Proof.
  intros Hk. unfold _kv.
  assert (Hl : String.length (ljust w key) = w)
    by (rewrite length_ljust; lia).
  split.
  - rewrite <- Hl at 1. apply get_after.
  - rewrite <- str_app_assoc. apply substring_at_end; [|reflexivity].
    rewrite str_length_app, Hl. cbn [String.length]. lia.
Qed.

Lemma kv_value_column_witness :
  String.length "BASIS" <= 18
  /\ String.get 18 (_kv "BASIS" (VStr "6-31G*") 18) = Some " "%char
  /\ substring 19 6 (_kv "BASIS" (VStr "6-31G*") 18) = "6-31G*".
Proof.
  split; [cbn; lia|].
  apply (kv_value_column "BASIS" (VStr "6-31G*") 18). cbn; lia.
Defined.

Lemma length_format_12_6f (x : spec_float) :
  String.length (format_12_6f x) = Nat.max 12 (String.length (format_f 6 x)).
Proof. apply length_rjust. Qed.

(** X3.  An atom line never cuts the symbol or a coordinate: it begins
    with the symbol and has at least 44 characters. *)
Theorem atom_line_never_cut (sym : string) (x y z : spec_float) :
  String.prefix sym (atom_line (sym, x, y, z)) = true
  /\ String.length (atom_line (sym, x, y, z))
     = Nat.max 2 (String.length sym) + 6
       + Nat.max 12 (String.length (format_f 6 x))
       + Nat.max 12 (String.length (format_f 6 y))
       + Nat.max 12 (String.length (format_f 6 z))
  /\ 44 <= String.length (atom_line (sym, x, y, z)).
Proof.
  assert (Hlen : String.length (atom_line (sym, x, y, z))
     = Nat.max 2 (String.length sym) + 6
       + Nat.max 12 (String.length (format_f 6 x))
       + Nat.max 12 (String.length (format_f 6 y))
       + Nat.max 12 (String.length (format_f 6 z))).
  { unfold atom_line. rewrite !str_length_app, length_ljust, !length_format_12_6f.
    cbn [String.length]. lia. }
  split; [|split; [exact Hlen | lia]].
  unfold atom_line, ljust. rewrite str_app_assoc. apply prefix_app.
Qed.

(** X4.  When the symbol has at most 2 characters and each coordinate
    prints in at most 12, the atom line has exactly 44 characters and its
    columns are fixed: the symbol field at 0, the coordinates at 4, 18
    and 32, each 12 wide. *)
Theorem atom_line_columns (sym : string) (x y z : spec_float) :
  String.length sym <= 2 ->
  String.length (format_f 6 x) <= 12 ->
  String.length (format_f 6 y) <= 12 ->
  String.length (format_f 6 z) <= 12 ->
  String.length (atom_line (sym, x, y, z)) = 44
  /\ substring 0 2 (atom_line (sym, x, y, z)) = ljust 2 sym
  /\ substring 4 12 (atom_line (sym, x, y, z)) = format_12_6f x
  /\ substring 18 12 (atom_line (sym, x, y, z)) = format_12_6f y
  /\ substring 32 12 (atom_line (sym, x, y, z)) = format_12_6f z.
Proof.
  intros Hs Hx Hy Hz.
  assert (Ls : String.length (ljust 2 sym) = 2) by (rewrite length_ljust; lia).
  assert (Lx : String.length (format_12_6f x) = 12)
    by (rewrite length_format_12_6f; lia).
  assert (Ly : String.length (format_12_6f y) = 12)
    by (rewrite length_format_12_6f; lia).
  assert (Lz : String.length (format_12_6f z) = 12)
    by (rewrite length_format_12_6f; lia).
  unfold atom_line.
  set (F := ljust 2 sym) in *. set (X := format_12_6f x) in *.
  set (Y := format_12_6f y) in *. set (Z := format_12_6f z) in *.
  repeat split.
  - rewrite !str_length_app, Ls, Lx, Ly, Lz. reflexivity.
  - rewrite <- Ls at 1. apply substring_whole_prefix.
  - rewrite <- (str_app_assoc F "  "). apply substring_at; [|exact Lx].
    now rewrite str_length_app, Ls.
  - rewrite <- (str_app_assoc X "  "), <- (str_app_assoc "  " (X +:+ "  ")),
      <- (str_app_assoc F ("  " +:+ X +:+ "  ")).
    apply substring_at; [|exact Ly].
    now rewrite !str_length_app, Ls, Lx.
  - rewrite <- (str_app_assoc Y "  "), <- (str_app_assoc "  " (Y +:+ "  ")),
      <- (str_app_assoc X ("  " +:+ Y +:+ "  ")),
      <- (str_app_assoc "  " (X +:+ "  " +:+ Y +:+ "  ")),
      <- (str_app_assoc F ("  " +:+ X +:+ "  " +:+ Y +:+ "  ")).
    apply substring_at_end; [|exact Lz].
    now rewrite !str_length_app, Ls, Lx, Ly.
Qed.

Lemma atom_line_columns_witness :
  String.length (atom_line ("Be", zero, S754_finite true 5 (-2), zero)) = 44
  /\ substring 0 2 (atom_line ("Be", zero, S754_finite true 5 (-2), zero))
     = ljust 2 "Be"
  /\ substring 4 12 (atom_line ("Be", zero, S754_finite true 5 (-2), zero))
     = format_12_6f zero
  /\ substring 18 12 (atom_line ("Be", zero, S754_finite true 5 (-2), zero))
     = format_12_6f (S754_finite true 5 (-2))
  /\ substring 32 12 (atom_line ("Be", zero, S754_finite true 5 (-2), zero))
     = format_12_6f zero.
Proof.
  apply (atom_line_columns "Be" zero (S754_finite true 5 (-2)) zero);
    vm_compute; lia.
Defined.

End LineLayout.

(** ** Which attributes [render] reads *)

Section AttributesRead.

Lemma in_attrs_read (n : string) :
  In n attrs_read <->
  In n [ "include_comment"; "jobtype"; "unrestricted"; "basis"; "method";
         "scf_guess"; "scf_convergence"; "scf_algorithm"; "max_scf_cycles";
         "spin_flip"; "cis_n_roots"; "cis_singlets"; "cis_triplets";
         "cis_convergence"; "max_cis_cycles" ].
Proof. reflexivity. Qed.












Lemma getattr_agree (o o' : pyobj) (n : string) :
  cls o = cls o' -> dict o !! n = dict o' !! n -> getattr o n = getattr o' n.
Proof. unfold getattr. now intros -> ->. Qed.

Lemma render_ext (mol : Molecule) (o o' : pyobj) (title : option string) :
  cls o = cls o' ->
  (forall n, In n attrs_read -> dict o !! n = dict o' !! n) ->
  render mol o title = render mol o' title.
Proof.
  intros Hc Hd.
  assert (Hg : forall n, In n attrs_read -> getattr o n = getattr o' n)
    by (intros n Hn; apply getattr_agree; auto).
  unfold render, comment_block, resolve_title, rem_block, rem_lines.
  repeat match goal with
         | |- context [getattr o ?n] =>
             rewrite (Hg n) by (apply in_attrs_read; cbn [In]; tauto)
         end.
  reflexivity.
Qed.

(** X7.  The result of [render] depends on the options object only
    through its class name and the fifteen attributes read: two objects
    that agree on these give the same text or the same exception,
    whatever other attributes they have. *)
Theorem render_reads_only_its_attributes (mol : Molecule) (o o' : pyobj)
    (title : option string) :
  cls o = cls o' ->
  (forall n,
     In n [ "include_comment"; "jobtype"; "unrestricted"; "basis"; "method";
            "scf_guess"; "scf_convergence"; "scf_algorithm"; "max_scf_cycles";
            "spin_flip"; "cis_n_roots"; "cis_singlets"; "cis_triplets";
            "cis_convergence"; "max_cis_cycles" ] ->
     dict o !! n = dict o' !! n) ->
  render mol o title = render mol o' title.
Proof.
  intros Hc Hd. apply render_ext; [exact Hc|].
  intros n Hn. apply Hd. now apply in_attrs_read.
Qed.

Lemma render_reads_only_its_attributes_witness :
  render be_molecule derived_options None
  = render be_molecule
      (PyObj "QChemOptions"
         (<["exchange" := VStr "B3LYP"]>
            (<["memory" := VInt 2000]> (dict derived_options)))) None.
Proof.
  apply (render_reads_only_its_attributes be_molecule derived_options
           (PyObj "QChemOptions"
              (<["exchange" := VStr "B3LYP"]>
                 (<["memory" := VInt 2000]> (dict derived_options)))) None).
  - reflexivity.
  - intros n Hn. cbn [In] in Hn.
    repeat (destruct Hn as [<-|Hn]; [reflexivity|]). contradiction.
Defined.

(** X8.  [render] never reads the attribute [exchange]: setting it to any
    value, or removing it, leaves the result unchanged. *)
Theorem render_ignores_exchange (mol : Molecule) (c : string)
    (d : gmap string pyval) (v : pyval) (title : option string) :
  render mol (PyObj c (<["exchange" := v]> d)) title = render mol (PyObj c d) title
  /\ render mol (PyObj c (delete "exchange" d)) title = render mol (PyObj c d) title.
Proof.
  split; apply render_ext; try reflexivity; intros n Hn; cbn [dict].
  - apply lookup_insert_ne. apply in_attrs_read in Hn. cbn [In] in Hn.
    repeat (destruct Hn as [<-|Hn]; [discriminate|]). contradiction.
  - apply lookup_delete_ne. apply in_attrs_read in Hn. cbn [In] in Hn.
    repeat (destruct Hn as [<-|Hn]; [discriminate|]). contradiction.
Qed.

End AttributesRead.

(** ** The whole text *)

Section WholeText.










End WholeText.

(** ** Substrings of the returned text, and the tests *)

Section Substrings.

Lemma contains_unfold (p s : string) :
  contains p s
  = String.prefix p s
    || match s with
       | EmptyString => false
       | String _ s' => contains p s'
       end.
Proof. now destruct s. Qed.

Lemma contains_prefix (p s : string) :
  String.prefix p s = true -> contains p s = true.
Proof. intros H. now rewrite contains_unfold, H. Qed.

Lemma prefix_mono (p a b : string) :
  String.prefix p a = true -> String.prefix p (a +:+ b) = true.
Proof.
  revert a. induction p as [|c p IH]; intros a.
  - intros _. now destruct (a +:+ b).
  - destruct a as [|x a]; [discriminate|].
    rewrite str_app_cons. cbn [String.prefix].
    destruct (ascii_dec c x); [apply IH | discriminate].
Qed.

Lemma contains_app_r (p a b : string) :
  contains p b = true -> contains p (a +:+ b) = true.
Proof.
  intros H. induction a as [|c a IH]; [exact H|].
  rewrite str_app_cons, contains_unfold, IH. apply orb_true_r.
Qed.

Lemma contains_app_l (p a b : string) :
  contains p a = true -> contains p (a +:+ b) = true.
Proof.
  induction a as [|c a IH]; rewrite contains_unfold; intros H.
  - rewrite orb_false_r in H. apply contains_prefix.
    now apply (prefix_mono p "" b).
  - apply orb_true_iff in H as [H|H].
    + apply contains_prefix. now apply prefix_mono.
    + rewrite str_app_cons, contains_unfold, (IH H). apply orb_true_r.
Qed.

(** A substring of one of the joined strings is a substring of the join. *)
Lemma contains_join (p sep l : string) (ls : list string) :
  In l ls -> contains p l = true -> contains p (join sep ls) = true.
Proof.
  intros Hin Hp. induction ls as [|x ls IH]; [contradiction|].
  destruct ls as [|y ls].
  - destruct Hin as [->|[]]. exact Hp.
  - rewrite join_cons. destruct Hin as [->|Hin].
    + now apply contains_app_l.
    + apply contains_app_r, contains_app_r. now apply IH.
Qed.

Lemma contains_line (mol : Molecule) (o : pyobj) (title : option string)
    (text p l : string) :
  render mol o title = Ok text ->
  In l (text_lines mol o title) ->
  String.prefix p l = true ->
  contains p text = true.
Proof.
  intros H Hin Hp. rewrite (render_Ok _ _ _ _ H).
  apply (contains_join p nl l); [exact Hin | now apply contains_prefix].
Qed.

Lemma in_settings_lines (mol : Molecule) (o : pyobj) (title : option string)
    (s : string * string * conv) :
  In s settings -> In (setting_line o s) (text_lines mol o title).
Proof.
  intros Hs. unfold text_lines, settings_lines_of.
  apply in_or_app. right. apply in_or_app. right. apply in_or_app. right.
  apply in_or_app. left. apply in_or_app. right. apply in_or_app. left.
  now apply in_map.
Qed.

Lemma in_molecule_lines (mol : Molecule) (o : pyobj) (title : option string)
    (l : string) :
  In l (molecule_lines_of mol) -> In l (text_lines mol o title).
Proof.
  intros Hl. unfold text_lines. apply in_or_app. right.
  apply in_or_app. now left.
Qed.

(** X12.  Every line that the code builds occurs in the returned text,
    whatever the strings hold: the markers [$molecule], [$rem] and [$end],
    the line of every atom and the line of every setting, and, when
    [include_comment] is true, [$comment] and the header line. *)
Theorem returned_text_contains_every_line (mol : Molecule) (o : pyobj)
    (title : option string) (text : string) :
  render mol o title = Ok text ->
  contains "$molecule" text = true
  /\ contains "$rem" text = true
  /\ contains "$end" text = true
  /\ (forall a, In a (atoms mol) -> contains (atom_line a) text = true)
  /\ (forall s, In s settings -> contains (setting_line o s) text = true)
  /\ (truthy (attr o "include_comment") = true ->
      contains "$comment" text = true
      /\ contains ("  1 " +:+ shown_title o title) text = true).
Proof.
  intros H.
  assert (Hl : forall l, In l (text_lines mol o title) -> contains l text = true)
    by (intros l Hl; apply (contains_line mol o title text l l H Hl), prefix_refl).
  split; [apply Hl, in_molecule_lines; now left|].
  split.
  { apply Hl. unfold text_lines, settings_lines_of.
    apply in_or_app. right. apply in_or_app. right. apply in_or_app. right.
    apply in_or_app. left. now left. }
  split.
  { apply Hl, in_molecule_lines. unfold molecule_lines_of.
    apply in_or_app. right. apply in_or_app. right. now left. }
  split.
  { intros a Ha. apply Hl, in_molecule_lines. unfold molecule_lines_of.
    apply in_or_app. right. apply in_or_app. left. now apply in_map. }
  split; [intros s Hs; now apply Hl, in_settings_lines|].
  intros Hc. split; apply Hl; unfold text_lines, comment_lines_of; rewrite Hc;
    apply in_or_app; left; [now left | right; now left].
Qed.

Lemma returned_text_contains_every_line_witness :
  exists text,
    render oh_molecule derived_options None = Ok text
    /\ contains "$molecule" text = true
    /\ contains "$rem" text = true
    /\ contains "$end" text = true
    /\ (forall a, In a (atoms oh_molecule) -> contains (atom_line a) text = true)
    /\ (forall s, In s settings ->
        contains (setting_line derived_options s) text = true)
    /\ (truthy (attr derived_options "include_comment") = true ->
        contains "$comment" text = true
        /\ contains ("  1 " +:+ shown_title derived_options None) text = true).
Proof.
  eexists. split; [vm_compute; reflexivity|].
  apply (returned_text_contains_every_line oh_molecule derived_options None).
  vm_compute; reflexivity.
Defined.

(** X13.  The substrings that the tests look for in the keys are in
    every returned text: [$molecule], [$rem], [SPIN_FLIP], [CIS_N_ROOTS],
    [CIS_SINGLETS] and [CIS_TRIPLETS], and [$comment] when
    [include_comment] is true; and the settings line of [opts.method] has
    the key [METHOD]. *)
Theorem returned_text_contains_keywords (mol : Molecule) (o : pyobj)
    (title : option string) (text : string) :
  render mol o title = Ok text ->
  forallb (fun p => contains p text)
    [ "$molecule"; "$rem"; "SPIN_FLIP"; "CIS_N_ROOTS"; "CIS_SINGLETS";
      "CIS_TRIPLETS" ] = true
  /\ (truthy (attr o "include_comment") = true -> contains "$comment" text = true)
  /\ contains ("METHOD             " +:+ py_str (attr o "method")) text = true.
Proof.
  intros H.
  assert (Hs : forall p s, In s settings ->
                 String.prefix p (setting_line o s) = true ->
                 contains p text = true).
  { intros p s Hs Hp.
    apply (contains_line mol o title text p (setting_line o s) H); [|exact Hp].
    now apply in_settings_lines. }
  split; [|split].
  - cbn [forallb].
    rewrite (contains_line mol o title text "$molecule" "$molecule" H)
      by (reflexivity || (apply in_molecule_lines; now left)).
    rewrite (contains_line mol o title text "$rem" "$rem" H);
      [| unfold text_lines, settings_lines_of;
         apply in_or_app; right; apply in_or_app; right; apply in_or_app; right;
         apply in_or_app; left; now left
       | reflexivity ].
    rewrite (Hs "SPIN_FLIP" ("SPIN_FLIP", "spin_flip", Decimal))
      by (vm_compute; tauto || reflexivity).
    rewrite (Hs "CIS_N_ROOTS" ("CIS_N_ROOTS", "cis_n_roots", Decimal))
      by (vm_compute; tauto || reflexivity).
    rewrite (Hs "CIS_SINGLETS" ("CIS_SINGLETS", "cis_singlets", Bool_token))
      by (vm_compute; tauto || reflexivity).
    rewrite (Hs "CIS_TRIPLETS" ("CIS_TRIPLETS", "cis_triplets", Bool_token))
      by (vm_compute; tauto || reflexivity).
    reflexivity.
  - intros Hc. apply (contains_line mol o title text "$comment" "$comment" H);
      [|reflexivity].
    unfold text_lines, comment_lines_of. rewrite Hc.
    apply in_or_app. left. now left.
  - apply (Hs _ ("METHOD", "method", Verbatim)); [vm_compute; tauto|].
    apply prefix_refl.
Qed.

Lemma returned_text_contains_keywords_witness :
  exists text,
    render be_molecule derived_options (Some be_title) = Ok text
    /\ forallb (fun p => contains p text)
         [ "$molecule"; "$rem"; "SPIN_FLIP"; "CIS_N_ROOTS"; "CIS_SINGLETS";
           "CIS_TRIPLETS" ] = true
    /\ (truthy (attr derived_options "include_comment") = true ->
        contains "$comment" text = true)
    /\ contains ("METHOD             " +:+ py_str (attr derived_options "method"))
         text = true.
Proof.
  eexists. split; [vm_compute; reflexivity|].
  apply (returned_text_contains_keywords be_molecule derived_options
           (Some be_title)).
  vm_compute; reflexivity.
Defined.

(** X14.  Each of the four tests of the repository ends in the
    [AttributeError] of [opts.method], before its first assertion,
    whatever molecule the reader returns. *)
Theorem tests_raise_before_asserting (mol : Molecule) :
  test_render_contains_required_blocks mol = Errored no_method
  /\ test_exchange_keyword_used mol = Errored no_method
  /\ test_spin_flip_and_cis_keywords mol = Errored no_method
  /\ test_boolean_toggles mol = Errored no_method.
Proof.
  unfold test_render_contains_required_blocks, test_exchange_keyword_used,
    test_spin_flip_and_cis_keywords, test_boolean_toggles.
  cbv zeta. now rewrite !render_instance.
Qed.

(** X15.  A returned text ends with the closing marker of the settings
    on a line of its own, followed by a line break. *)
Theorem returned_text_ends_with_end (mol : Molecule) (o : pyobj)
    (title : option string) (text : string) :
  render mol o title = Ok text ->
  exists pre, text = pre +:+ nl +:+ "$end" +:+ nl.
Proof.
  intros H. rewrite (render_Ok _ _ _ _ H). unfold text_lines, settings_lines_of.
  exists (join nl (comment_lines_of o title ++ molecule_lines_of mol ++ [ "" ]
                     ++ [ "$rem" ] ++ map (setting_line o) settings)).
  replace (comment_lines_of o title ++ molecule_lines_of mol ++ [ "" ]
             ++ ([ "$rem" ] ++ map (setting_line o) settings ++ [ "$end" ]) ++ [ "" ])
    with ((comment_lines_of o title ++ molecule_lines_of mol ++ [ "" ]
             ++ [ "$rem" ] ++ map (setting_line o) settings) ++ [ "$end"; "" ])
    by (rewrite <- ?app_assoc; cbn [app]; now rewrite <- ?app_assoc).
  rewrite join_app; [reflexivity | | discriminate].
  destruct (comment_lines_of o title); discriminate.
Qed.

Lemma returned_text_ends_with_end_witness :
  exists text,
    render be_molecule derived_no_comment None = Ok text
    /\ exists pre, text = pre +:+ nl +:+ "$end" +:+ nl.
Proof.
  eexists. split; [vm_compute; reflexivity|].
  apply (returned_text_ends_with_end be_molecule derived_no_comment None).
  vm_compute; reflexivity.
Defined.

End Substrings.
